(** * cookbook/agents/app.py : the Poe adapter of a Phidata agent

    A shallow embedding of [PhidataPoeBot] and of the deployment
    descriptor that follows it in [cookbook/agents/app.py].

    The script talks to three external parties: the Docker control plane
    ([docker.from_env], [client.containers.get], [container.start],
    [client.containers.run]), the Phidata agent ([get_agent],
    [agent.create_run], [agent.run]) and the process itself ([print],
    [time.sleep]).  None of them is modelled: every call is recorded as an
    event of a trace and answered by an oracle, a function of the trace so
    far, so that an external party may keep any state it likes.  Python
    exceptions are an error result; [self] is a record of optional
    attributes threaded through the methods. *)

From Stdlib Require Import String List Bool Arith NArith Lia.
Import ListNotations.
Local Open Scope string_scope.
Local Open Scope list_scope.

(** ** Exceptions *)

(** The exception classes the script can meet.  [docker.errors.NotFound]
    derives from [APIError], which derives from [DockerException];
    [ImageNotFound] derives from [NotFound]. *)
Inductive exn : Type :=
| IndexError
| AttributeError (attr : string)
| DockerException
| APIError
| NotFound
| ImageNotFound
| OtherError (msg : string).

(** [isinstance(e, docker.errors.NotFound)]: what the [except] clause of
    [ensure_pgvector_running] tests. *)
Definition isinstance_NotFound (e : exn) : bool :=
  match e with
  | NotFound | ImageNotFound => true
  | _ => false
  end.

Inductive result (A : Type) : Type :=
| Ok (a : A)
| Raise (e : exn).
Arguments Ok {A} a.
Arguments Raise {A} e.

(** ** Data of the external libraries, as far as the script touches it *)

(** [docker.models.containers.Container]: the script reads [status]. *)
Record Container : Type := mkContainer {
  container_name : string;
  status : string
}.

(** The arguments of [client.containers.run]; the two dicts are kept as
    association lists in source order. *)
Record RunArgs : Type := mkRunArgs {
  run_image : string;
  run_name : string;
  run_detach : bool;
  run_ports : list (string * N);
  run_environment : list (string * string)
}.

(** The keyword arguments of [get_agent]. *)
Record AgentConfig : Type := mkAgentConfig {
  llm_id : string;
  calculator : bool;
  ddg_search : bool;
  file_tools : bool;
  finance_tools : bool;
  data_analyst : bool;
  python_assistant : bool;
  research_assistant : bool;
  investment_assistant : bool;
  firecrawl_tools : bool
}.

(** The agent and its run identifier are opaque handles. *)
Definition AgentHandle : Type := nat.
Definition RunId : Type := string.

(** What iterating [agent.run(msg)] gives: the fragments delivered, and
    the exception that ended the iteration, if one did. *)
Record Generation : Type := mkGeneration {
  fragments : list string;
  failure : option exn
}.

(** [fp.ProtocolMessage], [fp.QueryRequest], [fp.PartialResponse],
    [fp.SettingsRequest] and [fp.SettingsResponse]. *)
Record ProtocolMessage : Type := mkProtocolMessage {
  role : string;
  content : string
}.

Record QueryRequest : Type := mkQueryRequest {
  query : list ProtocolMessage;
  user_id : string;
  conversation_id : string;
  message_id : string
}.

Record PartialResponse : Type := mkPartialResponse {
  text : string;
  is_suggested_reply : bool;
  is_replace_response : bool
}.

(** [fp.PartialResponse(text=t)]: the other fields keep their defaults. *)
Definition PartialResponse_of_text (t : string) : PartialResponse :=
  {| text := t; is_suggested_reply := false; is_replace_response := false |}.

Record SettingsRequest : Type := mkSettingsRequest {
  settings_version : string;
  settings_type : string
}.

Record SettingsResponse : Type := mkSettingsResponse {
  server_bot_dependencies : list (string * nat);
  allow_attachments : option bool;
  introduction_message : option string;
  expand_text_attachments : option bool;
  enable_image_comprehension : option bool
}.

(** [fp.SettingsResponse()]: no dependency, every option unset. *)
Definition SettingsResponse_default : SettingsResponse :=
  {| server_bot_dependencies := [];
     allow_attachments := None;
     introduction_message := None;
     expand_text_attachments := None;
     enable_image_comprehension := None |}.

(** ** Events, oracles and state *)

Inductive Event : Type :=
| EvDockerFromEnv
| EvContainersGet (name : string)
| EvContainerStart (c : Container)
| EvContainersRun (args : RunArgs)
| EvPrint (s : string)
| EvSleep (secs : nat)
| EvGetAgent (cfg : AgentConfig)
| EvCreateRun (a : AgentHandle)
| EvAgentRun (a : AgentHandle) (msg : string).

Definition Trace : Type := list Event.

(** The outside world.  Each oracle receives the trace up to, and not
    including, the call it answers. *)
Record Env : Type := mkEnv {
  docker_from_env : Trace -> result unit;
  containers_get : Trace -> string -> result Container;
  container_start : Trace -> Container -> result unit;
  containers_run : Trace -> RunArgs -> result unit;
  get_agent : Trace -> AgentConfig -> result AgentHandle;
  agent_create_run : Trace -> AgentHandle -> result RunId;
  agent_run : Trace -> AgentHandle -> string -> Generation
}.

(** The attributes [__init__] gives a [PhidataPoeBot]. *)
Record Self : Type := mkSelf {
  agent : option AgentHandle;
  agent_run_id : option RunId
}.

(** [trace] is chronological; [yielded] collects what an async generator
    has yielded so far. *)
Record State : Type := mkState {
  self : Self;
  trace : Trace;
  yielded : list PartialResponse
}.

Definition fresh : State :=
  {| self := {| agent := None; agent_run_id := None |};
     trace := [];
     yielded := [] |}.

(** ** The monad of the script: oracle reader, state, exceptions *)

Definition M (A : Type) : Type := Env -> State -> result A * State.

Definition ret {A : Type} (a : A) : M A := fun _ st => (Ok a, st).

Definition raise {A : Type} (e : exn) : M A := fun _ st => (Raise e, st).

Definition bind {A B : Type} (m : M A) (k : A -> M B) : M B :=
  fun env st =>
    match m env st with
    | (Ok a, st') => k a env st'
    | (Raise e, st') => (Raise e, st')
    end.

Declare Scope py_scope.
Delimit Scope py_scope with py.
Notation "x <- m ;; k" := (bind m (fun x => k))
  (at level 61, m at next level, right associativity) : py_scope.
Notation "m ;; k" := (bind m (fun _ => k))
  (at level 61, right associativity) : py_scope.
Local Open Scope py_scope.

(** [try: body except C: handler], [C] given by its instance test. *)
Definition try_except {A : Type} (body : M A) (catches : exn -> bool)
    (handler : M A) : M A :=
  fun env st =>
    match body env st with
    | (Ok a, st') => (Ok a, st')
    | (Raise e, st') => if catches e then handler env st' else (Raise e, st')
    end.

Definition log (e : Event) (st : State) : State :=
  {| self := self st; trace := trace st ++ [e]; yielded := yielded st |}.

(** An external call: answered on the trace before it, then recorded. *)
Definition call {A : Type} (e : Event) (answer : Env -> Trace -> result A)
    : M A :=
  fun env st => (answer env (trace st), log e st).

Definition print (s : string) : M unit :=
  call (EvPrint s) (fun _ _ => Ok tt).

Definition time_sleep (secs : nat) : M unit :=
  call (EvSleep secs) (fun _ _ => Ok tt).

Definition yield_ (r : PartialResponse) : M unit :=
  fun _ st =>
    (Ok tt,
     {| self := self st; trace := trace st; yielded := yielded st ++ [r] |}).

(** Attribute reads and writes on [self]. *)
Definition self_agent : M AgentHandle :=
  fun _ st =>
    match agent (self st) with
    | Some a => (Ok a, st)
    | None => (Raise (AttributeError "agent"), st)
    end.

Definition set_self_agent (a : AgentHandle) : M unit :=
  fun _ st =>
    (Ok tt,
     {| self := {| agent := Some a; agent_run_id := agent_run_id (self st) |};
        trace := trace st; yielded := yielded st |}).

Definition set_self_agent_run_id (r : RunId) : M unit :=
  fun _ st =>
    (Ok tt,
     {| self := {| agent := agent (self st); agent_run_id := Some r |};
        trace := trace st; yielded := yielded st |}).

(** Python's [l[-1]]: the last element, [IndexError] on the empty list. *)
Fixpoint index_neg1 {A : Type} (l : list A) : result A :=
  match l with
  | [] => Raise IndexError
  | [x] => Ok x
  | _ :: l' => index_neg1 l'
  end.

Definition lift {A : Type} (r : result A) : M A := fun _ st => (r, st).

(** [await loop.run_in_executor(None, f, x)]: [f x] runs on a worker
    thread and the coroutine resumes with its value, or with the exception
    it raised.  Threads are not modelled: the call is sequential here. *)
Definition run_in_executor {A B : Type} (f : A -> M B) (x : A) : M B := f x.

(** ** The bot *)

Module PhidataPoeBot.

(** The body of the [for delta in ...] loop of [run_agent], over the
    fragments the iteration delivers: [response_text += delta]. *)
Fixpoint for_delta (deltas : list string) (response_text : string) : string :=
  match deltas with
  | [] => response_text
  | delta :: rest => for_delta rest (response_text ++ delta)%string
  end.

Definition run_agent (user_message : string) : M string :=
  a <- self_agent ;;
  g <- call (EvAgentRun a user_message)
         (fun env tr => Ok (agent_run env tr a user_message)) ;;
  let response_text := for_delta (fragments g) EmptyString in
  match failure g with
  | Some e => raise e
  | None => ret response_text
  end.

(** An async generator: its chunks go to [yielded]; an exception ends it. *)
Definition get_response (request : QueryRequest) : M unit :=
  m <- lift (index_neg1 (query request)) ;;
  let user_message := content m in
  response_text <- run_in_executor run_agent user_message ;;
  yield_ (PartialResponse_of_text response_text).

Definition pgvector_run_args : RunArgs :=
  {| run_image := "phidata/pgvector:16";
     run_name := "pgvector";
     run_detach := true;
     run_ports := [("5432/tcp", 5532%N)];
     run_environment :=
       [("POSTGRES_DB", "ai");
        ("POSTGRES_USER", "ai");
        ("POSTGRES_PASSWORD", "ai")] |}.

Definition ensure_pgvector_running : M unit :=
  call EvDockerFromEnv docker_from_env ;;
  try_except
    (container <- call (EvContainersGet "pgvector")
                    (fun env tr => containers_get env tr "pgvector") ;;
     if negb (String.eqb (status container) "running") then
       print "Starting PgVector container..." ;;
       call (EvContainerStart container)
         (fun env tr => container_start env tr container) ;;
       time_sleep 10
     else ret tt)
    isinstance_NotFound
    (print "PgVector container not found, creating and starting..." ;;
     call (EvContainersRun pgvector_run_args)
       (fun env tr => containers_run env tr pgvector_run_args) ;;
     time_sleep 15).

Definition agent_config : AgentConfig :=
  {| llm_id := "gpt-4o-mini";
     calculator := true;
     ddg_search := true;
     file_tools := true;
     finance_tools := true;
     data_analyst := true;
     python_assistant := true;
     research_assistant := true;
     investment_assistant := true;
     firecrawl_tools := true |}.

(** [super().__init__()] sets attributes of [fp.PoeBot] the script never
    reads; it is left out. *)
Definition __init__ : M unit :=
  ensure_pgvector_running ;;
  a <- call (EvGetAgent agent_config)
         (fun env tr => get_agent env tr agent_config) ;;
  set_self_agent a ;;
  a' <- self_agent ;;
  r <- call (EvCreateRun a') (fun env tr => agent_create_run env tr a') ;;
  set_self_agent_run_id r.

Definition get_settings (setting : SettingsRequest) : M SettingsResponse :=
  ret SettingsResponse_default.

End PhidataPoeBot.

(** ** The deployment descriptor *)

Definition REQUIREMENTS : list string :=
  [ "fastapi-poe==0.0.48";
    "docker";
    "firecrawl";
    "phidata";
    "bs4";
    "duckduckgo-search";
    "exa-py";
    "nest-asyncio";
    "openai";
    "pgvector";
    "psycopg2-binary";
    "pypdf";
    "sqlalchemy";
    "yfinance";
    "duckdb";
    "pandas";
    "matplotlib" ].

(** [fastapi_app]: builds the one bot, on a fresh object; [fp.make_app]
    wraps it and is not modelled. *)
Definition fastapi_app : M unit := PhidataPoeBot.__init__.

(** ** Reading a trace *)

(** The arguments of the [agent.run] calls of a trace, in order. *)
Fixpoint agent_calls (tr : Trace) : list (AgentHandle * string) :=
  match tr with
  | [] => []
  | EvAgentRun a msg :: tr' => (a, msg) :: agent_calls tr'
  | _ :: tr' => agent_calls tr'
  end.

(** The containers [start] was called on. *)
Fixpoint start_calls (tr : Trace) : list Container :=
  match tr with
  | [] => []
  | EvContainerStart c :: tr' => c :: start_calls tr'
  | _ :: tr' => start_calls tr'
  end.

(** The arguments of the [client.containers.run] calls. *)
Fixpoint create_calls (tr : Trace) : list RunArgs :=
  match tr with
  | [] => []
  | EvContainersRun args :: tr' => args :: create_calls tr'
  | _ :: tr' => create_calls tr'
  end.

(** The names [client.containers.get] was asked for. *)
Fixpoint lookups (tr : Trace) : list string :=
  match tr with
  | [] => []
  | EvContainersGet name :: tr' => name :: lookups tr'
  | _ :: tr' => lookups tr'
  end.

(** The configurations [get_agent] was called with. *)
Fixpoint agent_constructions (tr : Trace) : list AgentConfig :=
  match tr with
  | [] => []
  | EvGetAgent cfg :: tr' => cfg :: agent_constructions tr'
  | _ :: tr' => agent_constructions tr'
  end.

(** The exception a control-plane call of the trace was answered with:
    the oracle is asked again on the prefix [before] the call. *)
Definition control_plane_error (env : Env) (before : Trace) (ev : Event)
    : option exn :=
  let err {A : Type} (r : result A) : option exn :=
    match r with Ok _ => None | Raise e => Some e end in
  match ev with
  | EvDockerFromEnv => err (docker_from_env env before)
  | EvContainersGet name => err (containers_get env before name)
  | EvContainerStart c => err (container_start env before c)
  | EvContainersRun args => err (containers_run env before args)
  | _ => None
  end.

(** All of them, for the events [evs] that follow [before]. *)
Fixpoint control_plane_errors (env : Env) (before : Trace) (evs : list Event)
    : list exn :=
  match evs with
  | [] => []
  | ev :: evs' =>
      match control_plane_error env before ev with
      | Some e => e :: control_plane_errors env (before ++ [ev]) evs'
      | None => control_plane_errors env (before ++ [ev]) evs'
      end
  end.


(** ** Sample worlds *)

(** A world in which Docker answers without error, the container being
    in state [st0], and the agent answers ["2+2"] with the one fragment
    ["4"] and anything else with three fragments. *)
Definition env_calm (st0 : string) : Env :=
  {| docker_from_env := fun _ => Ok tt;
     containers_get := fun _ name =>
       Ok {| container_name := name; status := st0 |};
     container_start := fun _ _ => Ok tt;
     containers_run := fun _ _ => Ok tt;
     get_agent := fun _ _ => Ok 7;
     agent_create_run := fun _ _ => Ok "run-1";
     agent_run := fun _ _ msg =>
       if String.eqb msg "2+2"
       then {| fragments := ["4"]; failure := None |}
       else {| fragments := ["b"; " is"; " a letter"]; failure := None |} |}.

(** No container of that name: the lookup raises [NotFound]. *)
Definition env_missing : Env :=
  {| docker_from_env := fun _ => Ok tt;
     containers_get := fun _ _ => Raise NotFound;
     container_start := fun _ _ => Ok tt;
     containers_run := fun _ _ => Ok tt;
     get_agent := fun _ _ => Ok 7;
     agent_create_run := fun _ _ => Ok "run-1";
     agent_run := fun _ _ _ => {| fragments := []; failure := None |} |}.

(** The container is there and stopped when looked up, and gone when
    started: [container.start()] raises [NotFound]. *)
Definition env_vanishing : Env :=
  {| docker_from_env := fun _ => Ok tt;
     containers_get := fun _ name =>
       Ok {| container_name := name; status := "exited" |};
     container_start := fun _ _ => Raise NotFound;
     containers_run := fun _ _ => Ok tt;
     get_agent := fun _ _ => Ok 7;
     agent_create_run := fun _ _ => Ok "run-1";
     agent_run := fun _ _ _ => {| fragments := []; failure := None |} |}.

(** The control plane cannot be reached by the lookup. *)
Definition env_unreachable : Env :=
  {| docker_from_env := fun _ => Ok tt;
     containers_get := fun _ _ => Raise APIError;
     container_start := fun _ _ => Ok tt;
     containers_run := fun _ _ => Ok tt;
     get_agent := fun _ _ => Ok 7;
     agent_create_run := fun _ _ => Ok "run-1";
     agent_run := fun _ _ _ => {| fragments := []; failure := None |} |}.

(** The bot [fastapi_app] builds in a world. *)
Definition bot_of (env : Env) : State := snd (fastapi_app env fresh).

Definition request_of (msgs : list ProtocolMessage) : QueryRequest :=
  {| query := msgs; user_id := "u"; conversation_id := "c"; message_id := "m" |}.

Definition user_says (s : string) : ProtocolMessage :=
  {| role := "user"; content := s |}.

(** ** More readings of a trace, more worlds *)

(** The durations [time.sleep] was called with. *)
Fixpoint sleeps (tr : Trace) : list nat :=
  match tr with
  | [] => []
  | EvSleep secs :: tr' => secs :: sleeps tr'
  | _ :: tr' => sleeps tr'
  end.

(** The exception any external call of the trace was answered with: the
    control plane's, [get_agent]'s, [agent.create_run]'s and the one that
    ended the iteration of [agent.run]. *)
Definition external_error (env : Env) (before : Trace) (ev : Event)
    : option exn :=
  match ev with
  | EvGetAgent cfg =>
      match get_agent env before cfg with Ok _ => None | Raise e => Some e end
  | EvCreateRun a =>
      match agent_create_run env before a with
      | Ok _ => None
      | Raise e => Some e
      end
  | EvAgentRun a msg => failure (agent_run env before a msg)
  | _ => control_plane_error env before ev
  end.

Fixpoint external_errors (env : Env) (before : Trace) (evs : list Event)
    : list exn :=
  match evs with
  | [] => []
  | ev :: evs' =>
      match external_error env before ev with
      | Some e => e :: external_errors env (before ++ [ev]) evs'
      | None => external_errors env (before ++ [ev]) evs'
      end
  end.

(** The agent delivers two fragments and then breaks. *)
Definition env_agent_breaks : Env :=
  {| docker_from_env := fun _ => Ok tt;
     containers_get := fun _ name =>
       Ok {| container_name := name; status := "running" |};
     container_start := fun _ _ => Ok tt;
     containers_run := fun _ _ => Ok tt;
     get_agent := fun _ _ => Ok 7;
     agent_create_run := fun _ _ => Ok "run-1";
     agent_run := fun _ _ _ =>
       {| fragments := ["par"; "tial"];
          failure := Some (OtherError "rate limit") |} |}.

(** No container and no image: the lookup raises [NotFound], the create
    call [ImageNotFound]. *)
Definition env_no_image : Env :=
  {| docker_from_env := fun _ => Ok tt;
     containers_get := fun _ _ => Raise NotFound;
     container_start := fun _ _ => Ok tt;
     containers_run := fun _ _ => Raise ImageNotFound;
     get_agent := fun _ _ => Ok 7;
     agent_create_run := fun _ _ => Ok "run-1";
     agent_run := fun _ _ _ => {| fragments := []; failure := None |} |}.

(** No Docker daemon: [docker.from_env()] raises. *)
Definition env_no_docker : Env :=
  {| docker_from_env := fun _ => Raise DockerException;
     containers_get := fun _ _ => Raise NotFound;
     container_start := fun _ _ => Ok tt;
     containers_run := fun _ _ => Ok tt;
     get_agent := fun _ _ => Ok 7;
     agent_create_run := fun _ _ => Ok "run-1";
     agent_run := fun _ _ _ => {| fragments := []; failure := None |} |}.

(** [get_agent] raises. *)
Definition env_no_agent : Env :=
  {| docker_from_env := fun _ => Ok tt;
     containers_get := fun _ name =>
       Ok {| container_name := name; status := "running" |};
     container_start := fun _ _ => Ok tt;
     containers_run := fun _ _ => Ok tt;
     get_agent := fun _ _ => Raise (OtherError "no api key");
     agent_create_run := fun _ _ => Ok "run-1";
     agent_run := fun _ _ _ => {| fragments := []; failure := None |} |}.

(** [agent.create_run()] raises. *)
Definition env_no_run : Env :=
  {| docker_from_env := fun _ => Ok tt;
     containers_get := fun _ name =>
       Ok {| container_name := name; status := "running" |};
     container_start := fun _ _ => Ok tt;
     containers_run := fun _ _ => Ok tt;
     get_agent := fun _ _ => Ok 7;
     agent_create_run := fun _ _ => Raise (OtherError "no storage");
     agent_run := fun _ _ _ => {| fragments := []; failure := None |} |}.

(** The agent breaks on ["boom"], before any fragment, and answers
    anything else with ["ok"]. *)
Definition env_moody : Env :=
  {| docker_from_env := fun _ => Ok tt;
     containers_get := fun _ name =>
       Ok {| container_name := name; status := "running" |};
     container_start := fun _ _ => Ok tt;
     containers_run := fun _ _ => Ok tt;
     get_agent := fun _ _ => Ok 7;
     agent_create_run := fun _ _ => Ok "run-1";
     agent_run := fun _ _ msg =>
       if String.eqb msg "boom"
       then {| fragments := []; failure := Some (OtherError "tool") |}
       else {| fragments := ["ok"]; failure := None |} |}.

(** ** Tactics for running the script *)

Ltac unfold_py :=
  unfold fastapi_app, PhidataPoeBot.__init__,
    PhidataPoeBot.ensure_pgvector_running, try_except, bind, print,
    time_sleep, call, ret, raise, set_self_agent, set_self_agent_run_id,
    self_agent, log;
  cbn [fst snd self trace yielded agent agent_run_id].

(** Splits on the innermost oracle answer or test the goal branches on. *)
Ltac split_answer :=
  match goal with
  | |- context [negb ?b] => destruct b eqn:?
  | |- context [match ?x with _ => _ end] =>
      lazymatch x with
      | context [match _ with _ => _ end] => fail
      | _ => destruct x eqn:?
      end
  end;
  cbn [fst snd self trace yielded agent agent_run_id negb].

Ltac flatten_trace :=
  rewrite <- ?app_assoc; cbn [app].

(** ** The query adapter *)

Lemma append_empty_r (s : string) : (s ++ EmptyString)%string = s.
Proof. induction s as [|c s IH]; simpl; [reflexivity | now rewrite IH]. Qed.

Lemma append_assoc (s t u : string) :
  ((s ++ t) ++ u)%string = (s ++ (t ++ u))%string.
Proof. induction s as [|c s IH]; simpl; [reflexivity | now rewrite IH]. Qed.

Lemma concat_empty_cons (d : string) (ds : list string) :
  String.concat EmptyString (d :: ds)
  = (d ++ String.concat EmptyString ds)%string.
Proof.
  destruct ds as [|d' ds]; simpl; [now rewrite append_empty_r | reflexivity].
Qed.

(** The loop of [run_agent] appends the fragments, in order, to what it
    started with. *)
Lemma for_delta_concat (deltas : list string) (acc : string) :
  PhidataPoeBot.for_delta deltas acc
  = (acc ++ String.concat EmptyString deltas)%string.
Proof.
  revert acc.
  induction deltas as [|d ds IH]; intro acc.
  - simpl. now rewrite append_empty_r.
  - cbn [PhidataPoeBot.for_delta]. rewrite IH, concat_empty_cons.
    apply append_assoc.
Qed.

Lemma index_neg1_snoc {A : Type} (l : list A) (x : A) :
  index_neg1 (l ++ [x]) = Ok x.
Proof.
  induction l as [|y l IH]; [reflexivity |].
  simpl. destruct (l ++ [x]) eqn:E; [now destruct l | exact IH].
Qed.

Lemma nonempty_snoc {A : Type} (l : list A) :
  l <> [] <-> exists l' x, l = l' ++ [x].
Proof.
  split.
  - intro H. destruct (exists_last H) as [l' [x E]]. now exists l', x.
  - intros [l' [x E]] ->. now destruct l'.
Qed.

(** What [run_agent] does, case by case. *)
Lemma run_agent_eq (env : Env) (st : State) (msg : string) :
  PhidataPoeBot.run_agent msg env st =
  match agent (self st) with
  | None => (Raise (AttributeError "agent"), st)
  | Some a =>
      let g := agent_run env (trace st) a msg in
      match failure g with
      | Some e => (Raise e, log (EvAgentRun a msg) st)
      | None =>
          (Ok (String.concat EmptyString (fragments g)),
           log (EvAgentRun a msg) st)
      end
  end.
Proof.
  unfold PhidataPoeBot.run_agent, bind, self_agent, call.
  destruct (agent (self st)) as [a|]; [| reflexivity].
  cbn zeta. rewrite for_delta_concat. simpl.
  destruct (failure (agent_run env (trace st) a msg)); reflexivity.
Qed.

(** What [get_response] does on a request whose last message is [m]. *)
Lemma get_response_snoc (env : Env) (st : State) (request : QueryRequest)
    (earlier : list ProtocolMessage) (m : ProtocolMessage) :
  query request = earlier ++ [m] ->
  PhidataPoeBot.get_response request env st =
  match agent (self st) with
  | None => (Raise (AttributeError "agent"), st)
  | Some a =>
      let g := agent_run env (trace st) a (content m) in
      match failure g with
      | Some e => (Raise e, log (EvAgentRun a (content m)) st)
      | None =>
          (Ok tt,
           {| self := self st;
              trace := trace st ++ [EvAgentRun a (content m)];
              yielded := yielded st ++
                [PartialResponse_of_text
                   (String.concat EmptyString (fragments g))] |})
      end
  end.
Proof.
  intro Hq.
  unfold PhidataPoeBot.get_response, run_in_executor, bind at 1, lift.
  rewrite Hq, index_neg1_snoc. unfold bind. rewrite run_agent_eq.
  destruct (agent (self st)) as [a|]; [| reflexivity].
  cbn zeta.
  destruct (failure (agent_run env (trace st) a (content m))); reflexivity.
Qed.

Lemma agent_calls_app (tr tr' : Trace) :
  agent_calls (tr ++ tr') = agent_calls tr ++ agent_calls tr'.
Proof.
  induction tr as [|ev tr IH]; [reflexivity |].
  destruct ev; simpl; rewrite IH; reflexivity.
Qed.

(** C1.  On a request whose message list is not empty, that is, of the
    form [earlier ++ [m]] (see [nonempty_snoc]), a constructed bot calls
    [agent.run] exactly once, with the content of the last message [m];
    when the iteration over the agent's fragments completes, [get_response]
    yields exactly one chunk more, and the [text] of that chunk is the
    concatenation, in order, of those fragments. *)
Theorem get_response_one_chunk (env : Env) (st : State)
    (request : QueryRequest) (earlier : list ProtocolMessage)
    (m : ProtocolMessage) (a : AgentHandle) :
  query request = earlier ++ [m] ->
  agent (self st) = Some a ->
  failure (agent_run env (trace st) a (content m)) = None ->
  let fs := fragments (agent_run env (trace st) a (content m)) in
  let (r, st') := PhidataPoeBot.get_response request env st in
  r = Ok tt /\
  trace st' = trace st ++ [EvAgentRun a (content m)] /\
  agent_calls (trace st') = agent_calls (trace st) ++ [(a, content m)] /\
  yielded st'
  = yielded st ++ [PartialResponse_of_text (String.concat EmptyString fs)] /\
  length (yielded st') = length (yielded st) + 1 /\
  map text (yielded st')
  = map text (yielded st) ++ [String.concat EmptyString fs].
Proof.
  intros Hq Ha Hdone fs.
  rewrite (get_response_snoc env st request earlier m Hq), Ha.
  cbn zeta. rewrite Hdone. cbn [trace yielded].
  split; [reflexivity |].
  split; [reflexivity |].
  split; [apply agent_calls_app |].
  split; [reflexivity |].
  split.
  - rewrite length_app. reflexivity.
  - rewrite map_app. reflexivity.
Qed.

(** The scenario of the specification: the request ["2+2"], the agent's
    fragments [["4"]], the one chunk ["4"]. *)
Lemma get_response_one_chunk_witness :
  let st := bot_of (env_calm "running") in
  let (r, st') :=
    PhidataPoeBot.get_response (request_of [user_says "2+2"])
      (env_calm "running") st in
  r = Ok tt /\
  trace st' = trace st ++ [EvAgentRun 7 "2+2"] /\
  agent_calls (trace st') = agent_calls (trace st) ++ [(7, "2+2")] /\
  yielded st' = yielded st ++ [PartialResponse_of_text "4"] /\
  length (yielded st') = length (yielded st) + 1 /\
  map text (yielded st') = map text (yielded st) ++ ["4"].
Proof.
  exact (get_response_one_chunk (env_calm "running")
           (bot_of (env_calm "running")) (request_of [user_says "2+2"])
           [] (user_says "2+2") 7 eq_refl eq_refl eq_refl).
Defined.

(** C3.  On a request whose message list is empty, [get_response] raises
    [IndexError] at [request.query[-1]]: no call reaches the agent, nothing
    is yielded, and the state is as before. *)
Theorem get_response_empty_fails (env : Env) (st : State)
    (request : QueryRequest) :
  query request = [] ->
  PhidataPoeBot.get_response request env st = (Raise IndexError, st).
Proof.
  intro Hq.
  unfold PhidataPoeBot.get_response, bind, lift.
  rewrite Hq. reflexivity.
Qed.

Lemma get_response_empty_fails_witness :
  PhidataPoeBot.get_response (request_of []) (env_calm "running")
    (bot_of (env_calm "running"))
  = (Raise IndexError, bot_of (env_calm "running")).
Proof.
  exact (get_response_empty_fails (env_calm "running")
           (bot_of (env_calm "running")) (request_of []) eq_refl).
Defined.

(** C7.  Two requests with the same last message [m] and any earlier
    messages (and any identifiers) make [get_response] behave alike: same
    result, same final state; in particular the agent, when the bot has one,
    is handed [content m] and nothing else. *)
Theorem get_response_reads_last_only (env : Env) (st : State)
    (earlier1 earlier2 : list ProtocolMessage) (m : ProtocolMessage)
    (u1 c1 i1 u2 c2 i2 : string) :
  let request1 := mkQueryRequest (earlier1 ++ [m]) u1 c1 i1 in
  let request2 := mkQueryRequest (earlier2 ++ [m]) u2 c2 i2 in
  PhidataPoeBot.get_response request1 env st
  = PhidataPoeBot.get_response request2 env st /\
  match agent (self st) with
  | Some a =>
      trace (snd (PhidataPoeBot.get_response request1 env st))
      = trace st ++ [EvAgentRun a (content m)]
  | None =>
      trace (snd (PhidataPoeBot.get_response request1 env st)) = trace st
  end.
Proof.
  intros request1 request2.
  rewrite (get_response_snoc env st request1 earlier1 m eq_refl).
  rewrite (get_response_snoc env st request2 earlier2 m eq_refl).
  split; [reflexivity |].
  destruct (agent (self st)) as [a|]; [| reflexivity].
  cbn zeta.
  destruct (failure (agent_run env (trace st) a (content m))); reflexivity.
Qed.



(** ** The settings handler *)

(** C5.  Whatever the two settings requests, the worlds and the states,
    [get_settings] returns the same value, [fp.SettingsResponse()], and
    leaves the state as it found it. *)
Theorem get_settings_constant (env1 env2 : Env) (st1 st2 : State)
    (setting1 setting2 : SettingsRequest) :
  fst (PhidataPoeBot.get_settings setting1 env1 st1)
  = fst (PhidataPoeBot.get_settings setting2 env2 st2) /\
  PhidataPoeBot.get_settings setting1 env1 st1
  = (Ok SettingsResponse_default, st1).
Proof. split; reflexivity. Qed.

(** ** The deployment descriptor *)

(** C6, as stated: the list does not have 18 entries. *)
Lemma REQUIREMENTS_not_18 : length REQUIREMENTS <> 18.
Proof. cbv. discriminate. Qed.

(** C6, amended.  [REQUIREMENTS] has exactly 17 entries. *)
Theorem REQUIREMENTS_length : length REQUIREMENTS = 17.
Proof. reflexivity. Qed.

(** ** The container supervisor *)

(** C2, as stated, fails: a container found stopped can be gone when it is
    started; [container.start()] then raises [NotFound] inside the [try],
    the [except] clause takes over and a create call is issued. *)
Lemma three_way_as_stated_fails :
  ~ (forall (env : Env) (c : Container),
       docker_from_env env [] = Ok tt ->
       containers_get env [EvDockerFromEnv] "pgvector" = Ok c ->
       status c <> "running" ->
       let tr := trace (snd (PhidataPoeBot.ensure_pgvector_running env fresh)) in
       length (start_calls tr) = 1 /\ create_calls tr = []).
Proof.
  intro H.
  destruct (H env_vanishing
              {| container_name := "pgvector"; status := "exited" |}
              eq_refl eq_refl) as [_ Hcreate].
  - discriminate.
  - vm_compute in Hcreate. discriminate.
Qed.

(** C2, amended.  Once the client is obtained, the calls issued follow the
    lookup: not found, exactly one create call, with the fixed arguments,
    and no start call; found running, neither; found in another state,
    exactly one start call, and no create call unless that start call
    itself raises not-found, in which case exactly one create call, with
    the fixed arguments, follows. *)
Theorem ensure_pgvector_running_three_way (env : Env) (st : State) :
  docker_from_env env (trace st) = Ok tt ->
  exists evs : list Event,
    trace (snd (PhidataPoeBot.ensure_pgvector_running env st))
    = trace st ++ evs /\
    PhidataPoeBot.pgvector_run_args
    = {| run_image := "phidata/pgvector:16";
         run_name := "pgvector";
         run_detach := true;
         run_ports := [("5432/tcp", 5532%N)];
         run_environment :=
           [("POSTGRES_DB", "ai"); ("POSTGRES_USER", "ai");
            ("POSTGRES_PASSWORD", "ai")] |} /\
    match containers_get env (trace st ++ [EvDockerFromEnv]) "pgvector" with
    | Raise e =>
        start_calls evs = [] /\
        create_calls evs =
          if isinstance_NotFound e then [PhidataPoeBot.pgvector_run_args]
          else []
    | Ok c =>
        if String.eqb (status c) "running"
        then start_calls evs = [] /\ create_calls evs = []
        else
          start_calls evs = [c] /\
          create_calls evs =
            match
              container_start env
                (trace st ++
                 [EvDockerFromEnv; EvContainersGet "pgvector";
                  EvPrint "Starting PgVector container..."]) c
            with
            | Ok _ => []
            | Raise e =>
                if isinstance_NotFound e
                then [PhidataPoeBot.pgvector_run_args]
                else []
            end
    end.
Proof.
  intro Hclient.
  unfold_py. rewrite Hclient. cbn [fst snd trace].
  flatten_trace.
  repeat (split_answer; flatten_trace);
    (eexists; split; [reflexivity | split; [reflexivity |]]);
    repeat split; reflexivity.
Qed.

Lemma ensure_pgvector_running_three_way_witness :
  exists evs : list Event,
    trace (snd (PhidataPoeBot.ensure_pgvector_running env_vanishing fresh))
    = trace fresh ++ evs /\
    start_calls evs = [{| container_name := "pgvector"; status := "exited" |}] /\
    create_calls evs = [PhidataPoeBot.pgvector_run_args].
Proof.
  destruct (ensure_pgvector_running_three_way env_vanishing fresh eq_refl)
    as [evs [Htr [_ H]]].
  exists evs. split; [exact Htr | exact H].
Defined.

(** C8.  Once the client is obtained: a container found in a state other
    than running is started and, the start call having returned, the
    supervisor sleeps 10 seconds and returns; a container not found is
    created and, the create call having returned, the supervisor sleeps
    15 seconds, strictly more than 10, and returns; in both cases the one
    lookup is the only probe of the container, nothing follows the sleep.
    A container found running is followed by no event at all. *)
Theorem ensure_pgvector_running_waits (env : Env) (st : State) :
  docker_from_env env (trace st) = Ok tt ->
  let t1 := trace st ++ [EvDockerFromEnv] in
  let t2 := trace st ++ [EvDockerFromEnv; EvContainersGet "pgvector"] in
  let tr' := trace (snd (PhidataPoeBot.ensure_pgvector_running env st)) in
  (forall c : Container,
     containers_get env t1 "pgvector" = Ok c ->
     status c <> "running" ->
     container_start env
       (t2 ++ [EvPrint "Starting PgVector container..."]) c = Ok tt ->
     tr' = t2 ++ [EvPrint "Starting PgVector container...";
                  EvContainerStart c; EvSleep 10]) /\
  (forall e : exn,
     containers_get env t1 "pgvector" = Raise e ->
     isinstance_NotFound e = true ->
     containers_run env
       (t2 ++ [EvPrint "PgVector container not found, creating and starting..."])
       PhidataPoeBot.pgvector_run_args = Ok tt ->
     tr' = t2 ++ [EvPrint "PgVector container not found, creating and starting...";
                  EvContainersRun PhidataPoeBot.pgvector_run_args;
                  EvSleep 15]) /\
  (forall c : Container,
     containers_get env t1 "pgvector" = Ok c ->
     status c = "running" ->
     tr' = t2) /\
  10 < 15.
Proof.
  intros Hclient t1 t2 tr'. subst t1 t2 tr'.
  unfold_py. rewrite Hclient. cbn [fst snd trace].
  flatten_trace.
  repeat split.
  - intros c Hget Hstatus Hstart.
    rewrite Hget. cbn [fst snd trace]. flatten_trace.
    destruct (String.eqb_spec (status c) "running") as [E|_];
      [contradiction |].
    cbn [negb fst snd trace]. flatten_trace.
    rewrite Hstart. cbn [fst snd trace]. flatten_trace. reflexivity.
  - intros e Hget Hnf Hrun.
    rewrite Hget, Hnf. cbn [fst snd trace]. flatten_trace.
    rewrite Hrun. cbn [fst snd trace]. flatten_trace. reflexivity.
  - intros c Hget Hstatus.
    rewrite Hget, Hstatus. cbn [fst snd trace]. reflexivity.
  - lia.
Qed.

Lemma ensure_pgvector_running_waits_witness :
  trace (snd (PhidataPoeBot.ensure_pgvector_running (env_calm "exited") fresh))
  = [EvDockerFromEnv; EvContainersGet "pgvector";
     EvPrint "Starting PgVector container...";
     EvContainerStart {| container_name := "pgvector"; status := "exited" |};
     EvSleep 10] /\
  trace (snd (PhidataPoeBot.ensure_pgvector_running env_missing fresh))
  = [EvDockerFromEnv; EvContainersGet "pgvector";
     EvPrint "PgVector container not found, creating and starting...";
     EvContainersRun PhidataPoeBot.pgvector_run_args;
     EvSleep 15] /\
  trace (snd (PhidataPoeBot.ensure_pgvector_running (env_calm "running") fresh))
  = [EvDockerFromEnv; EvContainersGet "pgvector"].
Proof.
  split; [| split].
  - apply (proj1 (ensure_pgvector_running_waits (env_calm "exited") fresh
                    eq_refl)
             {| container_name := "pgvector"; status := "exited" |}
             eq_refl); [discriminate | reflexivity].
  - exact (proj1 (proj2 (ensure_pgvector_running_waits env_missing fresh
                           eq_refl))
             NotFound eq_refl eq_refl eq_refl).
  - exact (proj1 (proj2 (proj2 (ensure_pgvector_running_waits
                                  (env_calm "running") fresh eq_refl)))
             {| container_name := "pgvector"; status := "running" |}
             eq_refl eq_refl).
Defined.

(** C4.  Let [evs] be the events of a bot construction.  If one of its
    control-plane calls (client, lookup, start, create) was answered with an
    exception [e] that is not a not-found error, then the construction
    raises [e]; the failing call is its last event, so nothing is retried;
    [get_agent] is never called and [self] has no agent. *)
Theorem control_plane_error_aborts (env : Env) (st : State) (e : exn)
    (evs : list Event) :
  trace (snd (PhidataPoeBot.__init__ env st)) = trace st ++ evs ->
  In e (control_plane_errors env (trace st) evs) ->
  isinstance_NotFound e = false ->
  fst (PhidataPoeBot.__init__ env st) = Raise e /\
  self (snd (PhidataPoeBot.__init__ env st)) = self st /\
  agent_constructions evs = [] /\
  (exists (pre : list Event) (ev : Event),
     evs = pre ++ [ev] /\
     control_plane_error env (trace st ++ pre) ev = Some e) /\
  length (lookups evs) <= 1 /\
  length (start_calls evs) <= 1 /\
  length (create_calls evs) <= 1.
Proof.
  intros Htr Hin Hnf. revert Htr Hin.
  unfold_py.
  repeat split_answer; intros Htr Hin;
    rewrite <- ?app_assoc in Htr; cbn [app] in Htr;
    apply app_inv_head in Htr; subst evs;
    cbn [control_plane_errors control_plane_error] in Hin.
  all: repeat match goal with
              | H : _ = Ok _ |- _ => rewrite H in Hin
              | H : _ = Raise _ |- _ => rewrite H in Hin
              end;
       cbn [In] in Hin.
  all: repeat match goal with
              | H : _ \/ _ |- _ => destruct H as [H | H]
              | H : False |- _ => contradiction
              end;
       subst; try congruence.
  all: repeat match goal with
              | H : context [(_ ++ _) ++ _] |- _ => rewrite <- app_assoc in H
              end;
       cbn [app] in *.
  all: split; [reflexivity |];
       split; [reflexivity |];
       split; [reflexivity |];
       split; [| cbn; lia].
  all: match goal with
       | |- exists pre ev, ?l = _ /\ _ =>
           exists (removelast l), (last l EvDockerFromEnv);
           split; [reflexivity |];
           cbn [removelast last app control_plane_error]
       end.
  all: rewrite ?app_nil_r;
       match goal with
       | H : _ = Raise _ |- _ => rewrite H; reflexivity
       end.
Qed.


Lemma control_plane_error_aborts_witness :
  fst (PhidataPoeBot.__init__ env_unreachable fresh) = Raise APIError /\
  self (snd (PhidataPoeBot.__init__ env_unreachable fresh)) = self fresh /\
  agent_constructions [EvDockerFromEnv; EvContainersGet "pgvector"] = [] /\
  (exists (pre : list Event) (ev : Event),
     [EvDockerFromEnv; EvContainersGet "pgvector"] = pre ++ [ev] /\
     control_plane_error env_unreachable (trace fresh ++ pre) ev
     = Some APIError) /\
  length (lookups [EvDockerFromEnv; EvContainersGet "pgvector"]) <= 1 /\
  length (start_calls [EvDockerFromEnv; EvContainersGet "pgvector"]) <= 1 /\
  length (create_calls [EvDockerFromEnv; EvContainersGet "pgvector"]) <= 1.
Proof.
  exact (control_plane_error_aborts env_unreachable fresh APIError
           [EvDockerFromEnv; EvContainersGet "pgvector"]
           eq_refl (or_introl eq_refl) eq_refl).
Defined.

(** ** The run identifier *)




(** ** Further properties of the query adapter *)

Lemma length_append (s t : string) :
  String.length (s ++ t)%string = String.length s + String.length t.
Proof. induction s as [|c s IH]; simpl; [reflexivity | now rewrite IH]. Qed.

(** X1.  When the iteration over the agent's fragments ends with an
    exception [e], whatever was delivered before, [get_response] raises [e]
    and yields no chunk: the text collected so far is dropped.  The agent
    was called once, and [self] is as before. *)
Theorem get_response_agent_failure (env : Env) (st : State)
    (request : QueryRequest) (earlier : list ProtocolMessage)
    (m : ProtocolMessage) (a : AgentHandle) (e : exn) :
  query request = earlier ++ [m] ->
  agent (self st) = Some a ->
  failure (agent_run env (trace st) a (content m)) = Some e ->
  let (r, st') := PhidataPoeBot.get_response request env st in
  r = Raise e /\
  yielded st' = yielded st /\
  trace st' = trace st ++ [EvAgentRun a (content m)] /\
  self st' = self st.
Proof.
  intros Hq Ha Hfail.
  rewrite (get_response_snoc env st request earlier m Hq), Ha.
  cbn zeta. rewrite Hfail. repeat split.
Qed.

Lemma get_response_agent_failure_witness :
  let st := bot_of env_agent_breaks in
  let (r, st') :=
    PhidataPoeBot.get_response (request_of [user_says "hello"])
      env_agent_breaks st in
  r = Raise (OtherError "rate limit") /\
  yielded st' = yielded st /\
  trace st' = trace st ++ [EvAgentRun 7 "hello"] /\
  self st' = self st.
Proof.
  exact (get_response_agent_failure env_agent_breaks
           (bot_of env_agent_breaks) (request_of [user_says "hello"])
           [] (user_says "hello") 7 (OtherError "rate limit")
           eq_refl eq_refl eq_refl).
Defined.

(** X2.  [l[-1]] raises exactly on the empty list, raises nothing but
    [IndexError], and returns [x] exactly when [x] is the last element. *)
Theorem index_neg1_last {A : Type} (l : list A) :
  (index_neg1 l = Raise IndexError <-> l = []) /\
  (forall e : exn, index_neg1 l = Raise e -> e = IndexError) /\
  (forall x : A, index_neg1 l = Ok x <-> exists l', l = l' ++ [x]).
Proof.
  destruct l as [|y l].
  - repeat split; try reflexivity.
    + intros e H. now inversion H.
    + discriminate.
    + intros [l' E]. now destruct l'.
  - assert (Hne : y :: l <> []) by discriminate.
    destruct (exists_last Hne) as [l' [z E]]. rewrite E.
    rewrite index_neg1_snoc.
    repeat split; try discriminate.
    + intro H. now destruct l'.
    + intro H. inversion H; subst. now exists l'.
    + intros [l'' E']. apply app_inj_tail in E'. now destruct E' as [_ ->].
Qed.

(** X3.  The loop of [run_agent] adds nothing of its own: run over
    [ds1 ++ ds2] it is the loop over [ds2] started from the text the loop
    over [ds1] built, and the text it returns is as long as what it started
    with plus the fragments together. *)
Theorem for_delta_app (ds1 ds2 : list string) (acc : string) :
  PhidataPoeBot.for_delta (ds1 ++ ds2) acc
  = PhidataPoeBot.for_delta ds2 (PhidataPoeBot.for_delta ds1 acc) /\
  String.length (PhidataPoeBot.for_delta ds1 acc)
  = String.length acc + list_sum (map String.length ds1).
Proof.
  split.
  - revert acc. induction ds1 as [|d ds1 IH]; intro acc; [reflexivity |].
    simpl. apply IH.
  - revert acc. induction ds1 as [|d ds1 IH]; intro acc.
    + simpl. lia.
    + cbn [PhidataPoeBot.for_delta map list_sum fold_right].
      rewrite IH, length_append. unfold list_sum. lia.
Qed.

(** X4.  [get_response] reads the content of the last message and not its
    role: two requests whose last messages carry the same content under
    different roles, after any earlier messages, are served alike. *)
Theorem get_response_ignores_role (env : Env) (st : State)
    (earlier1 earlier2 : list ProtocolMessage) (role1 role2 c : string)
    (u1 c1 i1 u2 c2 i2 : string) :
  PhidataPoeBot.get_response
    (mkQueryRequest (earlier1 ++ [mkProtocolMessage role1 c]) u1 c1 i1)
    env st
  = PhidataPoeBot.get_response
      (mkQueryRequest (earlier2 ++ [mkProtocolMessage role2 c]) u2 c2 i2)
      env st.
Proof.
  rewrite (get_response_snoc env st
             (mkQueryRequest (earlier1 ++ [mkProtocolMessage role1 c]) u1 c1 i1)
             earlier1 (mkProtocolMessage role1 c) eq_refl).
  rewrite (get_response_snoc env st
             (mkQueryRequest (earlier2 ++ [mkProtocolMessage role2 c]) u2 c2 i2)
             earlier2 (mkProtocolMessage role2 c) eq_refl).
  reflexivity.
Qed.

(** X5.  Two requests served one after the other, both generations
    completing: two chunks are yielded, in the order of the requests, and
    the agent is called twice, the second time on a history that holds the
    first call. *)
Theorem get_response_twice (env : Env) (st : State)
    (request1 request2 : QueryRequest)
    (earlier1 earlier2 : list ProtocolMessage) (m1 m2 : ProtocolMessage)
    (a : AgentHandle) :
  query request1 = earlier1 ++ [m1] ->
  query request2 = earlier2 ++ [m2] ->
  agent (self st) = Some a ->
  let g1 := agent_run env (trace st) a (content m1) in
  let g2 :=
    agent_run env (trace st ++ [EvAgentRun a (content m1)]) a (content m2) in
  failure g1 = None ->
  failure g2 = None ->
  (PhidataPoeBot.get_response request1 ;;
   PhidataPoeBot.get_response request2) env st
  = (Ok tt,
     {| self := self st;
        trace := trace st ++
          [EvAgentRun a (content m1); EvAgentRun a (content m2)];
        yielded := yielded st ++
          [PartialResponse_of_text (String.concat EmptyString (fragments g1));
           PartialResponse_of_text (String.concat EmptyString (fragments g2))]
     |}).
Proof.
  intros Hq1 Hq2 Ha g1 g2 H1 H2. subst g1 g2.
  unfold bind.
  rewrite (get_response_snoc env st request1 earlier1 m1 Hq1), Ha.
  cbn zeta. rewrite H1.
  rewrite (get_response_snoc env _ request2 earlier2 m2 Hq2).
  cbn [self trace yielded]. rewrite Ha. cbn zeta. rewrite H2.
  rewrite <- !app_assoc. reflexivity.
Qed.

Lemma get_response_twice_witness :
  (PhidataPoeBot.get_response (request_of [user_says "2+2"]) ;;
   PhidataPoeBot.get_response
     (request_of [user_says "a"; user_says "b, what is it?"]))
    (env_calm "running") (bot_of (env_calm "running"))
  = (Ok tt,
     {| self := self (bot_of (env_calm "running"));
        trace := trace (bot_of (env_calm "running")) ++
          [EvAgentRun 7 "2+2"; EvAgentRun 7 "b, what is it?"];
        yielded :=
          [PartialResponse_of_text "4";
           PartialResponse_of_text "b is a letter"] |}).
Proof.
  exact (get_response_twice (env_calm "running")
           (bot_of (env_calm "running"))
           (request_of [user_says "2+2"])
           (request_of [user_says "a"; user_says "b, what is it?"])
           [] [user_says "a"] (user_says "2+2")
           (user_says "b, what is it?") 7
           eq_refl eq_refl eq_refl eq_refl eq_refl).
Defined.

(** X6.  A request that fails inside the agent does not spoil the bot: the
    next request is served as usual, with one chunk, on a history that
    holds the failed call. *)
Theorem get_response_after_failure (env : Env) (st : State)
    (request1 request2 : QueryRequest)
    (earlier1 earlier2 : list ProtocolMessage) (m1 m2 : ProtocolMessage)
    (a : AgentHandle) (e : exn) :
  query request1 = earlier1 ++ [m1] ->
  query request2 = earlier2 ++ [m2] ->
  agent (self st) = Some a ->
  let g1 := agent_run env (trace st) a (content m1) in
  let g2 :=
    agent_run env (trace st ++ [EvAgentRun a (content m1)]) a (content m2) in
  failure g1 = Some e ->
  failure g2 = None ->
  let (r1, st1) := PhidataPoeBot.get_response request1 env st in
  let (r2, st2) := PhidataPoeBot.get_response request2 env st1 in
  r1 = Raise e /\
  r2 = Ok tt /\
  yielded st2
  = yielded st ++
    [PartialResponse_of_text (String.concat EmptyString (fragments g2))] /\
  trace st2
  = trace st ++ [EvAgentRun a (content m1); EvAgentRun a (content m2)].
Proof.
  intros Hq1 Hq2 Ha g1 g2 H1 H2. subst g1 g2.
  rewrite (get_response_snoc env st request1 earlier1 m1 Hq1), Ha.
  cbn zeta. rewrite H1.
  rewrite (get_response_snoc env _ request2 earlier2 m2 Hq2).
  unfold log. cbn [self trace yielded]. rewrite Ha. cbn zeta. rewrite H2.
  cbn [trace yielded]. rewrite <- !app_assoc. repeat split.
Qed.

Lemma get_response_after_failure_witness :
  let st := bot_of env_moody in
  let (r1, st1) :=
    PhidataPoeBot.get_response (request_of [user_says "boom"]) env_moody st in
  let (r2, st2) :=
    PhidataPoeBot.get_response (request_of [user_says "hi"]) env_moody st1 in
  r1 = Raise (OtherError "tool") /\
  r2 = Ok tt /\
  yielded st2 = yielded st ++ [PartialResponse_of_text "ok"] /\
  trace st2 = trace st ++ [EvAgentRun 7 "boom"; EvAgentRun 7 "hi"].
Proof.
  exact (get_response_after_failure env_moody (bot_of env_moody)
           (request_of [user_says "boom"]) (request_of [user_says "hi"])
           [] [] (user_says "boom") (user_says "hi") 7 (OtherError "tool")
           eq_refl eq_refl eq_refl eq_refl eq_refl).
Defined.

(** ** Further properties of the container supervisor *)

(** X7.  In every world [ensure_pgvector_running] makes at most seven
    external calls: at most one lookup, by the name ["pgvector"], at most
    one start call, on the container the lookup returned, at most one create
    call, with the fixed arguments, and at most one sleep, of at most 15
    seconds.  It touches neither [self] nor the chunks yielded. *)
Theorem ensure_pgvector_running_bounded (env : Env) (st : State) :
  exists evs : list Event,
    trace (snd (PhidataPoeBot.ensure_pgvector_running env st))
    = trace st ++ evs /\
    length evs <= 7 /\
    length (lookups evs) <= 1 /\
    (forall name, In name (lookups evs) -> name = "pgvector") /\
    length (start_calls evs) <= 1 /\
    (forall c, In c (start_calls evs) ->
       containers_get env (trace st ++ [EvDockerFromEnv]) "pgvector" = Ok c) /\
    length (create_calls evs) <= 1 /\
    (forall args, In args (create_calls evs) ->
       args = PhidataPoeBot.pgvector_run_args) /\
    length (sleeps evs) <= 1 /\
    list_sum (sleeps evs) <= 15 /\
    self (snd (PhidataPoeBot.ensure_pgvector_running env st)) = self st /\
    yielded (snd (PhidataPoeBot.ensure_pgvector_running env st)) = yielded st.
Proof.
  unfold_py.
  repeat (split_answer; flatten_trace);
    (eexists; split; [reflexivity |]);
    cbn [length lookups start_calls create_calls sleeps list_sum fold_right
         In];
    repeat split; try lia; try reflexivity; try tauto;
    intros ? [<- | []]; try reflexivity; assumption.
Qed.

Lemma create_calls_app (tr tr' : Trace) :
  create_calls (tr ++ tr') = create_calls tr ++ create_calls tr'.
Proof.
  induction tr as [|ev tr IH]; [reflexivity |].
  destruct ev; simpl; rewrite IH; reflexivity.
Qed.

Ltac answered_ok :=
  repeat match goal with u : unit |- _ => destruct u end;
  first [reflexivity | eassumption].

(** X8.  When [ensure_pgvector_running] returns normally, one of three
    things happened: the container was found running and nothing else was
    done; or a start call returned and the 10 seconds were slept; or a
    create call returned and the 15 seconds were slept.  The container is
    not looked at again: after a start or a create, returning says the call
    went through and the time passed, not that the container runs. *)
Theorem ensure_pgvector_running_returns (env : Env) (st : State) :
  fst (PhidataPoeBot.ensure_pgvector_running env st) = Ok tt ->
  let tr' := trace (snd (PhidataPoeBot.ensure_pgvector_running env st)) in
  (exists c : Container,
     containers_get env (trace st ++ [EvDockerFromEnv]) "pgvector" = Ok c /\
     status c = "running" /\
     tr' = trace st ++ [EvDockerFromEnv; EvContainersGet "pgvector"]) \/
  (exists (pre : Trace) (c : Container),
     tr' = pre ++ [EvContainerStart c; EvSleep 10] /\
     container_start env pre c = Ok tt /\
     create_calls tr' = create_calls (trace st)) \/
  (exists pre : Trace,
     tr' = pre ++ [EvContainersRun PhidataPoeBot.pgvector_run_args;
                   EvSleep 15] /\
     containers_run env pre PhidataPoeBot.pgvector_run_args = Ok tt).
Proof.
  unfold_py.
  repeat split_answer; intro Hok; try discriminate.
  all: first
    [ left; eexists; split; [answered_ok |]; split;
      [ now apply String.eqb_eq | rewrite <- app_assoc; reflexivity ]
    | right; left; eexists _, _; rewrite <- app_assoc; cbn [app];
      split; [reflexivity |]; split;
      [ answered_ok
      | rewrite !create_calls_app; cbn [create_calls];
        now rewrite !app_nil_r ]
    | right; right; eexists; rewrite <- app_assoc; cbn [app];
      split; [reflexivity | answered_ok] ].
Qed.

Lemma ensure_pgvector_running_returns_witness :
  let tr' :=
    trace (snd (PhidataPoeBot.ensure_pgvector_running env_missing fresh)) in
  (exists c : Container,
     containers_get env_missing (trace fresh ++ [EvDockerFromEnv]) "pgvector"
     = Ok c /\
     status c = "running" /\
     tr' = trace fresh ++ [EvDockerFromEnv; EvContainersGet "pgvector"]) \/
  (exists (pre : Trace) (c : Container),
     tr' = pre ++ [EvContainerStart c; EvSleep 10] /\
     container_start env_missing pre c = Ok tt /\
     create_calls tr' = create_calls (trace fresh)) \/
  (exists pre : Trace,
     tr' = pre ++ [EvContainersRun PhidataPoeBot.pgvector_run_args;
                   EvSleep 15] /\
     containers_run env_missing pre PhidataPoeBot.pgvector_run_args = Ok tt).
Proof.
  exact (ensure_pgvector_running_returns env_missing fresh eq_refl).
Defined.

(** X9.  The create call is made inside the [except] clause, so nothing
    catches what it raises: when the container is not found and the create
    call raises [e], of any class, a not-found error such as a missing image
    included, [ensure_pgvector_running] raises [e]; there is no second
    attempt and no sleep. *)
Theorem ensure_pgvector_running_create_fails (env : Env) (st : State)
    (e0 e : exn) :
  docker_from_env env (trace st) = Ok tt ->
  containers_get env (trace st ++ [EvDockerFromEnv]) "pgvector" = Raise e0 ->
  isinstance_NotFound e0 = true ->
  containers_run env
    (trace st ++
     [EvDockerFromEnv; EvContainersGet "pgvector";
      EvPrint "PgVector container not found, creating and starting..."])
    PhidataPoeBot.pgvector_run_args = Raise e ->
  PhidataPoeBot.ensure_pgvector_running env st
  = (Raise e,
     {| self := self st;
        trace := trace st ++
          [EvDockerFromEnv; EvContainersGet "pgvector";
           EvPrint "PgVector container not found, creating and starting...";
           EvContainersRun PhidataPoeBot.pgvector_run_args];
        yielded := yielded st |}).
Proof.
  intros Hclient Hget Hnf Hrun.
  unfold_py. rewrite Hclient. cbn [fst snd trace].
  rewrite Hget, Hnf. cbn [fst snd trace self yielded]. flatten_trace.
  rewrite Hrun. reflexivity.
Qed.

Lemma ensure_pgvector_running_create_fails_witness :
  PhidataPoeBot.ensure_pgvector_running env_no_image fresh
  = (Raise ImageNotFound,
     {| self := self fresh;
        trace := trace fresh ++
          [EvDockerFromEnv; EvContainersGet "pgvector";
           EvPrint "PgVector container not found, creating and starting...";
           EvContainersRun PhidataPoeBot.pgvector_run_args];
        yielded := yielded fresh |}).
Proof.
  exact (ensure_pgvector_running_create_fails env_no_image fresh
           NotFound ImageNotFound eq_refl eq_refl eq_refl eq_refl).
Defined.

(** X10.  [docker.from_env()] is called before the [try]: whatever it
    raises, a not-found error included, leaves [ensure_pgvector_running] at
    once, and with it the construction of the bot; no container is looked
    up, started or created and no agent is built. *)
Theorem client_failure_aborts (env : Env) (st : State) (e : exn) :
  docker_from_env env (trace st) = Raise e ->
  PhidataPoeBot.ensure_pgvector_running env st
  = (Raise e, log EvDockerFromEnv st) /\
  PhidataPoeBot.__init__ env st = (Raise e, log EvDockerFromEnv st).
Proof.
  intro Hclient. unfold_py. rewrite Hclient. split; reflexivity.
Qed.

Lemma client_failure_aborts_witness :
  PhidataPoeBot.ensure_pgvector_running env_no_docker fresh
  = (Raise DockerException, log EvDockerFromEnv fresh) /\
  PhidataPoeBot.__init__ env_no_docker fresh
  = (Raise DockerException, log EvDockerFromEnv fresh).
Proof.
  exact (client_failure_aborts env_no_docker fresh DockerException eq_refl).
Defined.

(** ** Further properties of the construction *)

(** What a successful construction went through. *)
Lemma init_ok_inv (env : Env) (st st' : State) :
  PhidataPoeBot.__init__ env st = (Ok tt, st') ->
  exists (st1 : State) (a : AgentHandle) (id : RunId),
    PhidataPoeBot.ensure_pgvector_running env st = (Ok tt, st1) /\
    get_agent env (trace st1) PhidataPoeBot.agent_config = Ok a /\
    agent_create_run env
      (trace st1 ++ [EvGetAgent PhidataPoeBot.agent_config]) a = Ok id /\
    trace st'
    = trace st1 ++ [EvGetAgent PhidataPoeBot.agent_config; EvCreateRun a] /\
    self st' = {| agent := Some a; agent_run_id := Some id |} /\
    yielded st' = yielded st1.
Proof.
  unfold PhidataPoeBot.__init__, bind at 1.
  destruct (PhidataPoeBot.ensure_pgvector_running env st) as [[[]|e] st1];
    [| discriminate].
  unfold bind, call, set_self_agent, set_self_agent_run_id, self_agent, log.
  cbn [self trace yielded agent agent_run_id].
  destruct (get_agent env (trace st1) PhidataPoeBot.agent_config)
    as [a|e] eqn:Hagent; [| discriminate].
  cbn [self trace yielded agent agent_run_id].
  destruct (agent_create_run env
              (trace st1 ++ [EvGetAgent PhidataPoeBot.agent_config]) a)
    as [id|e] eqn:Hrun; [| discriminate].
  intro H. inversion H; subst st'; clear H.
  exists st1, a, id. cbn [self trace yielded].
  rewrite <- app_assoc. repeat split; assumption.
Qed.

(** X11.  A construction that succeeds has run the supervisor to its end
    first, then called [get_agent] once, with the fixed configuration, then
    [create_run] once, on the agent it got; [self] holds that agent and that
    run identifier, whatever it held before. *)
Theorem init_success (env : Env) (st st' : State) :
  PhidataPoeBot.__init__ env st = (Ok tt, st') ->
  exists (st1 : State) (a : AgentHandle) (id : RunId),
    PhidataPoeBot.ensure_pgvector_running env st = (Ok tt, st1) /\
    get_agent env (trace st1) PhidataPoeBot.agent_config = Ok a /\
    agent_create_run env
      (trace st1 ++ [EvGetAgent PhidataPoeBot.agent_config]) a = Ok id /\
    trace st'
    = trace st1 ++ [EvGetAgent PhidataPoeBot.agent_config; EvCreateRun a] /\
    self st' = {| agent := Some a; agent_run_id := Some id |} /\
    yielded st' = yielded st1.
Proof. apply init_ok_inv. Qed.

Lemma init_success_witness :
  exists (st1 : State) (a : AgentHandle) (id : RunId),
    PhidataPoeBot.ensure_pgvector_running (env_calm "exited") fresh
    = (Ok tt, st1) /\
    get_agent (env_calm "exited") (trace st1) PhidataPoeBot.agent_config
    = Ok a /\
    agent_create_run (env_calm "exited")
      (trace st1 ++ [EvGetAgent PhidataPoeBot.agent_config]) a = Ok id /\
    trace (bot_of (env_calm "exited"))
    = trace st1 ++ [EvGetAgent PhidataPoeBot.agent_config; EvCreateRun a] /\
    self (bot_of (env_calm "exited"))
    = {| agent := Some a; agent_run_id := Some id |} /\
    yielded (bot_of (env_calm "exited")) = yielded st1.
Proof.
  exact (init_success (env_calm "exited") fresh (bot_of (env_calm "exited"))
           eq_refl).
Defined.

(** X12.  The construction raises nothing of its own: an exception that
    leaves [__init__] is the one its last external call was answered with,
    be it the control plane's, [get_agent]'s or [agent.create_run]'s.
    Nothing is called after the call that failed. *)
Theorem init_failure_provenance (env : Env) (st : State) (e : exn)
    (evs : list Event) :
  fst (PhidataPoeBot.__init__ env st) = Raise e ->
  trace (snd (PhidataPoeBot.__init__ env st)) = trace st ++ evs ->
  exists (pre : list Event) (ev : Event),
    evs = pre ++ [ev] /\
    external_error env (trace st ++ pre) ev = Some e.
Proof.
  intros Hfail Htr. revert Hfail Htr.
  unfold_py.
  repeat split_answer; intros Hfail Htr; try discriminate;
    inversion Hfail; subst; clear Hfail;
    rewrite <- ?app_assoc in Htr; cbn [app] in Htr;
    apply app_inv_head in Htr; subst evs.
  all: repeat match goal with
              | H : context [(_ ++ _) ++ _] |- _ => rewrite <- app_assoc in H
              end;
       cbn [app] in *.
  all: match goal with
       | |- exists pre ev, ?l = _ /\ _ =>
           exists (removelast l), (last l EvDockerFromEnv);
           split; [reflexivity |];
           cbn [removelast last app external_error control_plane_error]
       end.
  all: rewrite ?app_nil_r;
       match goal with
       | H : _ = Raise _ |- _ => rewrite H; reflexivity
       end.
Qed.

Lemma init_failure_provenance_witness :
  exists (pre : list Event) (ev : Event),
    [EvDockerFromEnv; EvContainersGet "pgvector";
     EvGetAgent PhidataPoeBot.agent_config] = pre ++ [ev] /\
    external_error env_no_agent (trace fresh ++ pre) ev
    = Some (OtherError "no api key").
Proof.
  exact (init_failure_provenance env_no_agent fresh
           (OtherError "no api key")
           [EvDockerFromEnv; EvContainersGet "pgvector";
            EvGetAgent PhidataPoeBot.agent_config]
           eq_refl eq_refl).
Defined.


